(** * Navi X backend (src/backend.py): a shallow embedding of the Flask
      view functions and the properties of the bus routes, the action
      dispatcher, the report generator and the credential store.

    Conventions of the embedding.
    - A Python value that reaches a view function through [request.get_json]
      is a [pyval]; a [str] is a [string] of 8-bit characters (ASCII text),
      an [int] is a [Z], a [float] is the 64-bit pattern of its IEEE-754
      binary64 representation, a [dict] is an association list in insertion
      order with distinct keys.
    - An exception is a value of [exn]; Flask turns [HTTPException c] into a
      response with status [c] and every other exception into status 500.
    - [Authority] is a mapped model ([db.Model]): the view functions query
      it through [Authority.query] and write it through [db.session]; they
      work on the rows of their session and the table changes only at
      [db.session.commit()].
    - [Bus] is a plain class: it has no attribute [query], so every
      [Bus.query] raises AttributeError, and [db.session.add] of a [Bus]
      raises UnmappedInstanceError. The statements that follow such a call
      in a view function are translated as they are written.
    - Library functions whose result the view functions pass on unchanged
      ([generate_password_hash], [secure_filename], the [repr] of a float
      and of a str, the POSIX timestamp of a datetime) are the fields of a
      record [library], a parameter of the routes. *)

From Stdlib Require Import ZArith List String Ascii Bool Lia.
From Stdlib Require Import Numbers.DecimalString.
Import ListNotations.

Open Scope string_scope.
Open Scope Z_scope.

(** ** Python values and the builtins the view functions call *)

Module Py.

#[warnings="-register-all"]
Inductive pyval : Type :=
| VNone
| VBool (b : bool)
| VInt (n : Z)
| VFloat (bits : Z)
| VStr (s : string)
| VList (l : list pyval)
| VDict (d : list (string * pyval)).

Inductive exn : Type :=
| AttributeError
| TypeError
| ValueError
| OverflowError
| KeyError
| UnmappedInstanceError
| HTTPException (code : Z).

Inductive result (A : Type) : Type :=
| Ok (a : A)
| Raise (e : exn).
Arguments Ok {A} a.
Arguments Raise {A} e.

(** *** dict *)

Fixpoint dict_get (d : list (string * pyval)) (k : string) : option pyval :=
  match d with
  | [] => None
  | (k', v) :: d' => if String.eqb k' k then Some v else dict_get d' k
  end.

Definition dict_mem (d : list (string * pyval)) (k : string) : bool :=
  match dict_get d k with Some _ => true | None => false end.

(** [data.get(k, default)]: only a dict has the method. *)
Definition get (data : pyval) (k : string) (default : pyval) : result pyval :=
  match data with
  | VDict d =>
      Ok (match dict_get d k with Some v => v | None => default end)
  | _ => Raise AttributeError
  end.

(** [data[k]] for a str key [k] *)
Definition getitem (data : pyval) (k : string) : result pyval :=
  match data with
  | VDict d =>
      match dict_get d k with
      | Some v => Ok v
      | None => Raise KeyError
      end
  | _ => Raise TypeError
  end.

(** *** float: sign, exponent and fraction of a binary64 pattern *)

Definition float_exp (bits : Z) : Z := Z.land (Z.shiftr bits 52) 2047.
Definition float_frac (bits : Z) : Z := Z.land bits (2 ^ 52 - 1).

Definition float_is_zero (bits : Z) : bool :=
  (float_exp bits =? 0) && (float_frac bits =? 0).


(** *** str *)










(** [bool(v)], the truth value tested by [if v] and [not v]. *)
Definition truthy (v : pyval) : bool :=
  match v with
  | VNone => false
  | VBool b => b
  | VInt n => negb (n =? 0)
  | VFloat bits => negb (float_is_zero bits)
  | VStr s => negb (String.eqb s "")
  | VList l => match l with [] => false | _ => true end
  | VDict d => match d with [] => false | _ => true end
  end.

(** [v == s] for a str literal [s]: a str equals only a str. *)
Definition eq_str (v : pyval) (s : string) : bool :=
  match v with
  | VStr s' => String.eqb s' s
  | _ => false
  end.

(** [sub in s] for two strs. *)
Fixpoint str_contains (sub s : string) : bool :=
  if String.prefix sub s then true
  else match s with
       | EmptyString => false
       | String _ s' => str_contains sub s'
       end.

(** [k in data] for a str [k]: key of a dict, element of a list,
    substring of a str; the other values are not iterable. *)
Definition contains (data : pyval) (k : string) : result bool :=
  match data with
  | VDict d => Ok (dict_mem d k)
  | VList l => Ok (existsb (fun v => eq_str v k) l)
  | VStr s => Ok (str_contains k s)
  | VNone | VBool _ | VInt _ | VFloat _ => Raise TypeError
  end.

Definition lower_char (c : ascii) : ascii :=
  let n := nat_of_ascii c in
  if (65 <=? n)%nat && (n <=? 90)%nat then ascii_of_nat (n + 32) else c.

(** [s.lower()] *)
Fixpoint lower (s : string) : string :=
  match s with
  | EmptyString => EmptyString
  | String c s' => String (lower_char c) (lower s')
  end.

(** [s.rsplit('.', 1)]: split at the last dot, if there is one. *)
Fixpoint rsplit_dot_aux (s : string) : option (string * string) :=
  match s with
  | EmptyString => None
  | String c s' =>
      match rsplit_dot_aux s' with
      | Some (a, b) => Some (String c a, b)
      | None => if Ascii.eqb c "."%char then Some (EmptyString, s') else None
      end
  end.

Definition rsplit_dot (s : string) : list string :=
  match rsplit_dot_aux s with
  | Some (a, b) => [a; b]
  | None => [s]
  end.

(** [os.path.join(a, b)] on POSIX *)
Definition path_join (a b : string) : string :=
  if String.prefix "/" b then b
  else if String.eqb a "" then b
  else match String.get (String.length a - 1) a with
       | Some "/"%char => a ++ b
       | _ => a ++ "/" ++ b
       end.

(** [str(n)] for an int; the ints that reach it come from a JSON literal or
    from [int], so they have at most [MAX_STR_DIGITS] digits and [str] does
    not raise. *)
Definition str_of_int (n : Z) : string :=
  NilZero.string_of_int (Z.to_int n).

Fixpoint join (sep : string) (l : list string) : string :=
  match l with
  | [] => ""
  | [x] => x
  | x :: l' => x ++ sep ++ join sep l'
  end.

End Py.
Import Py.

(** ** Library functions taken as given *)

Record datetime : Type := mk_datetime {
  year : Z; month : Z; day : Z;
  hour : Z; minute : Z; second : Z; microsecond : Z
}.

Record library : Type := mk_library {
  (** [repr(x)] of a float, given by its bit pattern *)
  float_repr : Z -> string;
  (** [repr(s)] of a str *)
  str_repr : string -> string;
  (** [werkzeug.security.generate_password_hash] *)
  generate_password_hash : string -> string;
  (** [werkzeug.utils.secure_filename] *)
  secure_filename : string -> string;
  (** [int(t.timestamp())] of a datetime [t] *)
  timestamp_seconds : datetime -> Z
}.

(** The library and runtime functions of the login route and of the seed
    command. *)
Record runtime : Type := mk_runtime {
  (** [werkzeug.security.check_password_hash(pwhash, password)] *)
  check_password_hash : string -> pyval -> result bool;
  (** [create_access_token(identity=..., expires_delta=...)]: the identity
      and the lifetime in seconds *)
  create_access_token : string -> Z -> string;
  (** the text a value that is not a str is compared as, when it is bound
      in a comparison with a text column; an exception when the driver
      refuses the value *)
  bind_text : pyval -> result string;
  (** the float [22.5726 + (0.01 - 0.02 * (name.__hash__() % 10))] *)
  seed_lat : string -> Z;
  (** the float [88.3639 + (0.01 - 0.02 * (route.__hash__() % 10))] *)
  seed_lng : string -> Z
}.

(** ** Models *)

Fixpoint zeros (n : nat) : string :=
  match n with
  | O => ""
  | S n' => String "0"%char (zeros n')
  end.

Definition zfill (width : nat) (s : string) : string :=
  zeros (width - String.length s) ++ s.

(** [datetime.isoformat()] of a naive datetime *)
Definition isoformat (t : datetime) : string :=
  zfill 4 (str_of_int (year t)) ++ "-" ++ zfill 2 (str_of_int (month t))
  ++ "-" ++ zfill 2 (str_of_int (day t))
  ++ "T" ++ zfill 2 (str_of_int (hour t))
  ++ ":" ++ zfill 2 (str_of_int (minute t))
  ++ ":" ++ zfill 2 (str_of_int (second t))
  ++ (if microsecond t =? 0 then ""
      else "." ++ zfill 6 (str_of_int (microsecond t))).

Definition opt_isoformat (t : option datetime) : pyval :=
  match t with
  | Some t' => VStr (isoformat t')
  | None => VNone
  end.

Definition opt_str (s : option string) : pyval :=
  match s with
  | Some s' => VStr s'
  | None => VNone
  end.

Module Authority.

Record t : Type := mk {
  id : Z;
  username : string;
  email : string;
  department : string;
  password_hash : string;
  doc_filename : option string;
  verified : bool;
  registered_at : option datetime
}.

Definition to_dict (self : t) : pyval :=
  VDict [("id", VInt (id self));
         ("username", VStr (username self));
         ("email", VStr (email self));
         ("department", VStr (department self));
         ("verified", VBool (verified self));
         ("registered_at", opt_isoformat (registered_at self));
         ("doc_filename", opt_str (doc_filename self))].

End Authority.

Module Bus.

Record t : Type := mk {
  name : pyval;
  route : pyval;
  lat : pyval;
  lng : pyval;
  status : pyval;
  driver : pyval;
  speed : pyval;
  capacity : pyval;
  passengers : pyval;
  updated_at : option datetime
}.

Definition default (arg : option pyval) (d : pyval) : pyval :=
  match arg with
  | Some v => v
  | None => d
  end.

(** [Bus(name, route, lat=0.0, lng=0.0, status='On Time', driver='Unknown',
    speed=0, capacity=40, passengers=0)]; [now] is what [datetime.utcnow()]
    returns inside the constructor. *)
Definition init (now : datetime) (name route : pyval)
    (lat lng status driver speed capacity passengers : option pyval) : t :=
  {| name := name;
     route := route;
     lat := default lat (VFloat 0);
     lng := default lng (VFloat 0);
     status := default status (VStr "On Time");
     driver := default driver (VStr "Unknown");
     speed := default speed (VInt 0);
     capacity := default capacity (VInt 40);
     passengers := default passengers (VInt 0);
     updated_at := Some now |}.

(** [setattr(self, field, v)] for the nine attributes that the view functions
    assign; they assign no other. *)
Definition setattr (self : t) (field : string) (v : pyval) : t :=
  let '(mk n r la ln st dr sp ca pa up) := self in
  if String.eqb field "name" then mk v r la ln st dr sp ca pa up
  else if String.eqb field "route" then mk n v la ln st dr sp ca pa up
  else if String.eqb field "lat" then mk n r v ln st dr sp ca pa up
  else if String.eqb field "lng" then mk n r la v st dr sp ca pa up
  else if String.eqb field "status" then mk n r la ln v dr sp ca pa up
  else if String.eqb field "driver" then mk n r la ln st v sp ca pa up
  else if String.eqb field "speed" then mk n r la ln st dr v ca pa up
  else if String.eqb field "capacity" then mk n r la ln st dr sp v pa up
  else if String.eqb field "passengers" then mk n r la ln st dr sp ca v up
  else self.

End Bus.

Section Backend.

Variable lib : library.

(** [app.config['UPLOAD_FOLDER']] *)
Variable UPLOAD_FOLDER : string.

(** [repr(v)] and [str(v)] *)
Fixpoint py_repr (v : pyval) : string :=
  match v with
  | VNone => "None"
  | VBool b => if b then "True" else "False"
  | VInt n => str_of_int n
  | VFloat bits => float_repr lib bits
  | VStr s => str_repr lib s
  | VList l => "[" ++ join ", " (map py_repr l) ++ "]"
  | VDict d =>
      "{" ++ join ", "
               (map (fun kv => let '(k, x) := kv in
                               str_repr lib k ++ ": " ++ py_repr x) d)
          ++ "}"
  end.

Definition py_str (v : pyval) : string :=
  match v with
  | VStr s => s
  | _ => py_repr v
  end.

(** [Bus.to_dict(self, include_id=True, mongo_id=None)] *)
Definition Bus_to_dict (self : Bus.t) (include_id : bool) (mongo_id : pyval)
  : pyval :=
  let data :=
    [("name", Bus.name self);
     ("route", Bus.route self);
     ("lat", Bus.lat self);
     ("lng", Bus.lng self);
     ("status", Bus.status self);
     ("driver", Bus.driver self);
     ("speed", Bus.speed self);
     ("capacity", Bus.capacity self);
     ("passengers", Bus.passengers self);
     ("updated_at", opt_isoformat (Bus.updated_at self))] in
  VDict (if include_id && truthy mongo_id
         then data ++ [("id", VStr (py_str mongo_id))]
         else data).

(** The call [b.to_dict()] of the view functions: both defaults. *)
Definition to_dict (self : Bus.t) : pyval := Bus_to_dict self true VNone.

(** ** Helpers *)

Definition ALLOWED_EXTENSIONS : list string := ["pdf"; "png"; "jpg"; "jpeg"].

Definition allowed_file (filename : string) : bool :=
  str_contains "." filename
  && match nth_error (rsplit_dot filename) 1 with
     | Some ext => existsb (String.eqb (lower ext)) ALLOWED_EXTENSIONS
     | None => false
     end.

(** ** The stores and the session *)

(** [authorities]: the table of the mapped model [Authority]. [buses]: rows
    of a bus table in the database file; [Bus] is not mapped, so no
    statement of the program reads or writes them. *)
Record database : Type := mk_database {
  authorities : list Authority.t;
  buses : list (Z * Bus.t)
}.

(** [committed]: the tables; [session]: the rows as the running view
    function sees them; [uploads]: the files of the upload folder, path and
    content. *)
Record world : Type := mk_world {
  committed : database;
  session : database;
  uploads : list (string * string)
}.

Definition M (A : Type) : Type := world -> result A * world.

Definition ret {A} (a : A) : M A := fun w => (Ok a, w).

Definition raise {A} (e : exn) : M A := fun w => (Raise e, w).

Definition lift {A} (r : result A) : M A := fun w => (r, w).

Definition mbind {A B} (m : M A) (k : A -> M B) : M B :=
  fun w =>
    match m w with
    | (Ok a, w') => k a w'
    | (Raise e, w') => (Raise e, w')
    end.

Notation "x <- m ;; k" := (mbind m (fun x => k))
  (at level 61, m at next level, right associativity).
Notation "m ;;; k" := (mbind m (fun _ => k))
  (at level 61, right associativity).

Definition next_key (keys : list Z) : Z := 1 + fold_right Z.max 0 keys.

(** [Bus.query]: [Bus] (line 61) is declared as a plain class, not as a
    [db.Model] like [Authority] (line 37); it has no attribute [query], and
    the attribute access raises AttributeError before any method of the
    query is called. *)
Definition Bus_query {A : Type} : M A := raise AttributeError.

(** [Bus.query.all()] *)
Definition Bus_query_all : M (list Bus.t) := Bus_query.

(** [Bus.query.get_or_404(bus_id)] *)
Definition Bus_query_get_or_404 (bus_id : Z) : M Bus.t := Bus_query.

(** [Bus.query.count()] *)
Definition Bus_query_count : M Z := Bus_query.

(** [db.session.add(bus)] for a [Bus]: the object is not an instance of a
    mapped class and the session refuses it with UnmappedInstanceError. *)
Definition db_session_add_bus (b : Bus.t) : M unit :=
  raise UnmappedInstanceError.

(** [db.session.add(auth)]: the primary key and the column default of
    [registered_at] are filled in when the row is inserted. *)
Definition db_session_add_authority (now : datetime)
    (username email department password_hash : string)
    (doc_filename : option string) (verified : bool) : M Authority.t :=
  fun w =>
    let k := next_key (map Authority.id (authorities (session w))) in
    let a := Authority.mk k username email department password_hash
                          doc_filename verified (Some now) in
    (Ok a,
     mk_world (committed w)
              (mk_database (authorities (session w) ++ [a])
                           (buses (session w)))
              (uploads w)).

(** [db.session.commit()] *)
Definition db_session_commit : M unit :=
  fun w => (Ok tt, mk_world (session w) (session w) (uploads w)).

(** The row that SQLite returns first for [username = u OR email = e]: it
    answers the disjunction through the two unique indexes, the username
    term first, so the row with the username comes before a row that has
    only the email, whatever the order of insertion. *)
Definition first_match (u e : string) (rows : list Authority.t)
  : option Authority.t :=
  match find (fun a => String.eqb (Authority.username a) u) rows with
  | Some a => Some a
  | None => find (fun a => String.eqb (Authority.email a) e) rows
  end.

(** [Authority.query.filter((Authority.username == u) |
    (Authority.email == e)).first()] *)
Definition Authority_query_first (u e : string) : M (option Authority.t) :=
  fun w => (Ok (first_match u e (authorities (session w))), w).

(** [file.save(path)] *)
Definition file_save (path content : string) : M unit :=
  fun w =>
    (Ok tt,
     mk_world (committed w) (session w)
              ((path, content)
                 :: filter (fun f => negb (String.eqb (fst f) path))
                           (uploads w))).

(** ** Requests and replies *)

(** What a view function returns: [jsonify(body), status]. *)
Inductive reply : Type := Reply (body : pyval) (status : Z).

Definition msg (text : string) : pyval := VDict [("msg", VStr text)].

(** [request.get_json(force=True)]: the parsed body, or 400 when the body
    is not JSON. *)
Definition get_json (body : option pyval) : M pyval :=
  match body with
  | Some data => ret data
  | None => raise (HTTPException 400)
  end.

(** An uploaded file; as a condition it is true when its name is not
    empty. *)
Record FileStorage : Type := mk_file { filename : string; content : string }.

Fixpoint form_get {A} (form : list (string * A)) (k : string) : option A :=
  match form with
  | [] => None
  | (k', v) :: form' => if String.eqb k' k then Some v else form_get form' k
  end.

Definition nonempty (s : string) : bool := negb (String.eqb s "").

(** [@jwt_required()]: [denied] is the status of the reply when the
    request carries no acceptable token. *)
Definition jwt_required (denied : option Z) (view : M reply) : M reply :=
  match denied with
  | None => view
  | Some code => raise (HTTPException code)
  end.

(** ** Routes *)

(** POST /api/register; [utcnow k] is what the call number [k] of
    [datetime.utcnow()] returns while the request is served. *)
Definition register_authority (utcnow : nat -> datetime)
    (form : list (string * string)) (files : list (string * FileStorage))
  : M reply :=
  let username := form_get form "username" in
  let email := form_get form "email" in
  let department := form_get form "department" in
  let password := form_get form "password" in
  let file := form_get files "file" in
  let missing := ret (Reply (msg "Missing required fields") 400) in
  match username, email, password, department, file with
  | Some username, Some email, Some password, Some department, Some file =>
      if negb (nonempty username && nonempty email && nonempty password
               && nonempty department && nonempty (filename file))
      then missing
      else if negb (allowed_file (filename file))
      then ret (Reply (msg "File type not allowed") 400)
      else
        existing <- Authority_query_first username email ;;
        match existing with
        | Some _ =>
            ret (Reply (msg "Username or email already registered") 400)
        | None =>
            let filename :=
              secure_filename lib
                (username ++ "_"
                 ++ str_of_int (timestamp_seconds lib (utcnow 0%nat))
                 ++ "_" ++ filename file) in
            let filepath := path_join UPLOAD_FOLDER filename in
            file_save filepath (content file) ;;;
            auth <- db_session_add_authority (utcnow 1%nat)
                      username email department
                      (generate_password_hash lib password)
                      (Some filename) true ;;
            db_session_commit ;;;
            ret (Reply (VDict [("msg", VStr "Registration successful");
                               ("authority", Authority.to_dict auth)]) 201)
        end
  | _, _, _, _, _ => missing
  end.

(** GET /api/buses *)
Definition list_buses : M reply :=
  buses <- Bus_query_all ;;
  ret (Reply (VList (map to_dict buses)) 200).

(** POST /api/buses *)
Definition add_bus (utcnow : nat -> datetime) (body : option pyval)
  : M reply :=
  data <- get_json body ;;
  name <- lift (get data "name" VNone) ;;
  route <- lift (get data "route" VNone) ;;
  lat <- lift (get data "lat" (VFloat 0)) ;;
  lng <- lift (get data "lng" (VFloat 0)) ;;
  driver <- lift (get data "driver" (VStr "New Driver")) ;;
  if negb (truthy name) || negb (truthy route)
  then ret (Reply (msg "Name and route are required") 400)
  else
    let bus := Bus.init (utcnow 0%nat) name route (Some lat) (Some lng)
                        None (Some driver) None None None in
    db_session_add_bus bus ;;;
    db_session_commit ;;;
    ret (Reply (VDict [("msg", VStr "Bus added");
                       ("bus", to_dict bus)]) 201).

Definition UPDATE_FIELDS : list string :=
  ["name"; "route"; "lat"; "lng"; "status"; "driver"; "speed"; "capacity";
   "passengers"].

(** The loop of [update_bus]; [bus] is the object after the assignments
    made so far. *)
Fixpoint update_fields (fields : list string) (data : pyval) (bus : Bus.t)
  : M Bus.t :=
  match fields with
  | [] => ret bus
  | field :: fields' =>
      present <- lift (contains data field) ;;
      if present : bool
      then v <- lift (getitem data field) ;;
           update_fields fields' data (Bus.setattr bus field v)
      else update_fields fields' data bus
  end.

(** PUT /api/buses/<int:bus_id> *)
Definition update_bus (bus_id : Z) (body : option pyval) : M reply :=
  bus <- Bus_query_get_or_404 bus_id ;;
  data <- get_json body ;;
  bus <- update_fields UPDATE_FIELDS data bus ;;
  db_session_commit ;;;
  ret (Reply (VDict [("msg", VStr "Updated");
                     ("bus", to_dict bus)]) 200).


(** POST /api/emergency *)
Definition emergency_all : M reply :=
  buses <- Bus_query_all ;;
  let buses :=
    map (fun b => Bus.setattr b "status" (VStr "Emergency Stop")) buses in
  db_session_commit ;;;
  ret (Reply (VDict [("msg", VStr "Emergency applied to all buses");
                     ("affected", VInt (Z.of_nat (List.length buses)))])
             200).

Definition report_line (b : Bus.t) : string :=
  py_str (Bus.name b) ++ " - " ++ py_str (Bus.route b) ++ " - "
  ++ py_str (Bus.status b) ++ " - " ++ py_str (Bus.passengers b) ++ "/"
  ++ py_str (Bus.capacity b) ++ " passengers".

(** GET /api/report *)
Definition generate_report : M reply :=
  buses <- Bus_query_all ;;
  let report :=
    fold_left (fun report b => (report ++ [report_line b])%list)
              buses [] in
  ret (Reply (VDict [("report", VList (map VStr report))]) 200).

(** ** Serving a request *)

Record server : Type := mk_server {
  db : database;
  files : list (string * string)
}.

(** The HTTP response: status and, for a reply of a view function, the
    JSON body. *)
Record response : Type := mk_response {
  status_code : Z;
  json : option pyval
}.

(** One request: the view function runs on a fresh session over the tables;
    what it did not commit is dropped when the request ends; an
    [HTTPException] becomes its status, any other exception status 500. *)
Definition serve (view : M reply) (s : server) : response * server :=
  let (r, w) := view (mk_world (db s) (db s) (files s)) in
  (match r with
   | Ok (Reply body status) => mk_response status (Some body)
   | Raise (HTTPException code) => mk_response code None
   | Raise _ => mk_response 500 None
   end,
   mk_server (committed w) (uploads w)).

(** ** Login and the seed command *)

Variable rt : runtime.

(** [Authority.check_password(self, password)] *)
Definition Authority_check_password (self : Authority.t) (password : pyval)
  : result bool :=
  check_password_hash rt (Authority.password_hash self) password.

(** The value [identifier] as the query compares it with the columns. *)
Definition bound_text (identifier : pyval) : result string :=
  match identifier with
  | VStr s => Ok s
  | _ => bind_text rt identifier
  end.

(** [Authority.query.filter((Authority.username == identifier) |
    (Authority.email == identifier)).first()] *)
Definition Authority_query_identifier (identifier : pyval)
  : M (option Authority.t) :=
  text <- lift (bound_text identifier) ;;
  Authority_query_first text text.

(** POST /api/login *)
Definition login (body : option pyval) : M reply :=
  data <- get_json body ;;
  identifier <- lift (get data "identifier" VNone) ;;
  password <- lift (get data "password" VNone) ;;
  if negb (truthy identifier) || negb (truthy password)
  then ret (Reply (msg "Missing credentials") 400)
  else
    auth <- Authority_query_identifier identifier ;;
    let bad := ret (Reply (msg "Bad username/email or password") 401) in
    match auth with
    | None => bad
    | Some auth =>
        ok <- lift (Authority_check_password auth password) ;;
        if ok : bool then
          let access_token :=
            create_access_token rt (Authority.username auth) (8 * 3600) in
          ret (Reply (VDict [("access_token", VStr access_token);
                             ("authority", Authority.to_dict auth)]) 200)
        else bad
    end.

(** GET / *)
Definition index : M reply := ret (Reply (msg "Navi X backend alive") 200).

Definition SEED_SAMPLE : list (string * string) :=
  [("BGarden", "Route 101"); ("L238", "Route 202"); ("DN17", "Route 303");
   ("Airport D4", "Route 404"); ("University E5", "Route 505");
   ("Hospital F6", "Route 606")].

(** The bus that the seed command makes of a sample. *)
Definition seed_bus (now : datetime) (sample : string * string) : Bus.t :=
  Bus.init now (VStr (fst sample)) (VStr (snd sample))
           (Some (VFloat (seed_lat rt (fst sample))))
           (Some (VFloat (seed_lng rt (snd sample))))
           (Some (VStr "On Time")) (Some (VStr "Driver X")) (Some (VInt 20))
           None None.

(** The loop of [seed_data]; [k] counts the calls of [datetime.utcnow()]
    made so far. *)
Fixpoint seed_loop (utcnow : nat -> datetime) (k : nat)
    (sample : list (string * string)) : M unit :=
  match sample with
  | [] => ret tt
  | s :: sample' =>
      db_session_add_bus (seed_bus (utcnow k) s) ;;;
      seed_loop utcnow (S k) sample'
  end.

(** The command [flask seed]; the result is the line it prints. *)
Definition seed_data (utcnow : nat -> datetime) : M string :=
  count <- Bus_query_count ;;
  if count =? 0 then
    seed_loop utcnow 0%nat SEED_SAMPLE ;;;
    db_session_commit ;;;
    ret "Seeded buses"
  else ret "Buses already present".

(** A command line run: like a request, on a session of its own. *)
Definition run_command (command : M string) (s : server)
  : result string * server :=
  let (r, w) := command (mk_world (db s) (db s) (files s)) in
  (r, mk_server (committed w) (uploads w)).

End Backend.

(** ** Sample data, to evaluate the routes on concrete requests *)

(** Stand-ins for the library functions. *)
Definition sample_library : library :=
  mk_library (fun _ => "0.0")
             (fun s => "'" ++ s ++ "'")
             (fun password => "pbkdf2:" ++ password)
             (fun s => s)
             (fun _ => 1700000000).

(** Stand-ins for the functions of [runtime]. *)
Definition sample_runtime : runtime :=
  mk_runtime
    (fun pwhash password =>
       match password with
       | VStr p => Ok (String.eqb pwhash ("pbkdf2:" ++ p))
       | _ => Raise AttributeError
       end)
    (fun identity lifetime => "token:" ++ identity)
    (fun v => match v with
              | VInt n => Ok (str_of_int n)
              | _ => Raise TypeError
              end)
    (fun _ => 0x4036928F5C28F5C3)
    (fun _ => 0x405617D2F1A9FBE7).

Definition t_created : datetime := mk_datetime 2024 1 2 3 4 5 0.
Definition t_request : datetime := mk_datetime 2025 6 7 8 9 10 123.

Definition empty_server : server := mk_server (mk_database [] []) [].

Definition sample_form : list (string * string) :=
  [("username", "asha"); ("email", "asha@navi.example");
   ("department", "Transport"); ("password", "s3cret")].

Definition sample_upload : list (string * FileStorage) :=
  [("file", mk_file "licence.pdf" "PDF")].

Definition sample_clock : nat -> datetime := fun _ => t_created.

Definition registered_server : server :=
  snd (serve (register_authority sample_library "/srv/uploads" sample_clock
                sample_form sample_upload) empty_server).

Definition sample_login : list (string * pyval) :=
  [("identifier", VStr "asha"); ("password", VStr "s3cret")].

(** ** Properties *)


Definition error_reply (status : Z) (text : string) : response :=
  mk_response status (Some (msg text)).

(** A form field that is absent or empty. *)
Definition blank (field : option string) : Prop :=
  field = None \/ field = Some "".

(** An upload that is absent or has no file name. *)
Definition blank_file (file : option FileStorage) : Prop :=
  file = None \/ exists f, file = Some f /\ filename f = "".

(** Usernames, emails and primary keys of the authority table are each
    distinct. *)
Definition unique_accounts (s : server) : Prop :=
  NoDup (map Authority.username (authorities (db s)))
  /\ NoDup (map Authority.email (authorities (db s)))
  /\ NoDup (map Authority.id (authorities (db s))).

(** No account has [text] as username or as email. *)
Definition unused (text : string) (s : server) : Prop :=
  forall a, In a (authorities (db s)) ->
            Authority.username a <> text /\ Authority.email a <> text.

(** The file name under which a registration stores its document. *)
Definition stored_name (lib : library) (utcnow : nat -> datetime)
    (username : string) (file : FileStorage) : string :=
  secure_filename lib
    (username ++ "_" ++ str_of_int (timestamp_seconds lib (utcnow 0%nat))
     ++ "_" ++ filename file).

(** The account that a registration creates, and the server after it. *)
Definition new_authority (lib : library) (utcnow : nat -> datetime)
    (s : server) (u e d p : string) (f : FileStorage) : Authority.t :=
  Authority.mk (next_key (map Authority.id (authorities (db s)))) u e d
               (generate_password_hash lib p)
               (Some (stored_name lib utcnow u f)) true
               (Some (utcnow 1%nat)).

Definition after_register (lib : library) (UPLOAD_FOLDER : string)
    (utcnow : nat -> datetime) (s : server) (u e d p : string)
    (f : FileStorage) : server :=
  let path := path_join UPLOAD_FOLDER (stored_name lib utcnow u f) in
  mk_server
    (mk_database (authorities (db s) ++ [new_authority lib utcnow s u e d p f])
                 (buses (db s)))
    ((path, content f)
       :: filter (fun g => negb (String.eqb (fst g) path)) (files s)).

Definition register_reply (a : Authority.t) : response :=
  mk_response 201 (Some (VDict [("msg", VStr "Registration successful");
                                ("authority", Authority.to_dict a)])).

(** [data.get(k)] for a dict [d] *)
Definition field (d : list (string * pyval)) (k : string) : pyval :=
  match dict_get d k with
  | Some v => v
  | None => VNone
  end.

(** The account that the login query finds for the text [text]. *)
Definition account_for (text : string) (s : server) : option Authority.t :=
  first_match text text (authorities (db s)).

Definition login_reply (rt : runtime) (a : Authority.t) : response :=
  mk_response 200
    (Some (VDict [("access_token",
                   VStr (create_access_token rt (Authority.username a)
                                             28800));
                  ("authority", Authority.to_dict a)])).

Section Properties.

Variable lib : library.
Variable UPLOAD_FOLDER : string.

Lemma server_eta (s : server) : mk_server (db s) (files s) = s.
Proof. destruct s; reflexivity. Qed.

(** A view function that raises an exception other than an HTTP exception
    before it commits or stores anything is answered with status 500 and
    leaves the server as it was. *)
Lemma serve_raise (view : M reply) (s : server) (e : exn) :
  (forall w, view w = (Raise e, w)) ->
  (forall code, e <> HTTPException code) ->
  serve view s = (mk_response 500 None, s).
Proof.
  intros Hview He. unfold serve. rewrite Hview.
  cbn [committed uploads]. rewrite server_eta.
  destruct e; try reflexivity. now contradiction (He code).
Qed.

(** *** The token gate *)

Lemma jwt_required_denied (code : Z) (view : M reply) (s : server) :
  serve (jwt_required (Some code) view) s = (mk_response code None, s).
Proof. unfold serve, jwt_required, raise. simpl. now rewrite server_eta. Qed.

Lemma jwt_required_granted (view : M reply) (s : server) :
  serve (jwt_required None view) s = serve view s.
Proof. reflexivity. Qed.

(** *** The bus routes: [Bus] is not a mapped model *)

Lemma list_buses_raises (w : world) :
  list_buses lib w = (Raise AttributeError, w).
Proof. reflexivity. Qed.

Lemma update_bus_raises (bus_id : Z) (body : option pyval) (w : world) :
  update_bus lib bus_id body w = (Raise AttributeError, w).
Proof. reflexivity. Qed.


Lemma emergency_all_raises (w : world) :
  emergency_all w = (Raise AttributeError, w).
Proof. reflexivity. Qed.

Lemma generate_report_raises (w : world) :
  generate_report lib w = (Raise AttributeError, w).
Proof. reflexivity. Qed.

(** For a dict payload with a name and a route that are true, [add_bus]
    gets as far as [db.session.add(bus)], which raises. *)
Lemma add_bus_raises (utcnow : nat -> datetime) (d : list (string * pyval))
    (w : world) :
  truthy (field d "name") = true -> truthy (field d "route") = true ->
  add_bus lib utcnow (Some (VDict d)) w = (Raise UnmappedInstanceError, w).
Proof.
  intros Tn Tr. unfold add_bus, mbind, get_json, ret, lift, get.
  fold (field d "name"). fold (field d "route"). rewrite Tn, Tr.
  reflexivity.
Qed.


(** *** The bus JSON *)




(** C4: an update, whatever the bus id and the body, also a body that is
    not JSON: the answer is status 500, never 404, and nothing changes. *)
Theorem C4_update_unknown_id (s : server) (bus_id : Z) (body : option pyval) :
  serve (update_bus lib bus_id body) s = (mk_response 500 None, s)
  /\ status_code (fst (serve (update_bus lib bus_id body) s)) <> 404.
Proof.
  assert (H : serve (update_bus lib bus_id body) s
              = (mk_response 500 None, s)).
  { apply (serve_raise _ s AttributeError);
      [intros w; apply update_bus_raises|discriminate]. }
  split; [exact H|]. rewrite H. discriminate.
Qed.

(** *** Creation *)

(** C5: a create request with a name and a route that are true is answered
    with status 500 and adds nothing: [db.session.add] refuses the bus; a
    create request without name or without route is answered with status
    400 and adds nothing. *)
Theorem C5_create_defaults (s : server) (utcnow : nat -> datetime)
    (d : list (string * pyval)) :
  (forall name route,
      dict_get d "name" = Some name -> dict_get d "route" = Some route ->
      truthy name = true -> truthy route = true ->
      serve (add_bus lib utcnow (Some (VDict d))) s
      = (mk_response 500 None, s))
  /\ (dict_get d "name" = None \/ dict_get d "route" = None ->
      serve (add_bus lib utcnow (Some (VDict d))) s
      = (error_reply 400 "Name and route are required", s)).
Proof.
  split.
  - intros name route Hn Hr Tn Tr.
    apply (serve_raise _ s UnmappedInstanceError); [|discriminate].
    intros w. apply add_bus_raises; unfold field; [now rewrite Hn
                                                  |now rewrite Hr].
  - intros Hmiss.
    unfold serve, add_bus, mbind, get_json, ret, lift, get.
    destruct Hmiss as [H|H]; rewrite H; simpl.
    + now rewrite server_eta.
    + rewrite orb_true_r. simpl. now rewrite server_eta.
Qed.

(** *** Emergency broadcast and report *)

(** C6: the emergency broadcast is answered with status 500 and sets no
    status; the list asked for next is answered with status 500 too. *)
Theorem C6_emergency_broadcast (s : server) :
  serve emergency_all s = (mk_response 500 None, s)
  /\ serve (list_buses lib) (snd (serve emergency_all s))
     = (mk_response 500 None, s).
Proof.
  assert (H : serve emergency_all s = (mk_response 500 None, s)).
  { apply (serve_raise _ s AttributeError);
      [intros w; apply emergency_all_raises|discriminate]. }
  split; [exact H|]. rewrite H. cbn [snd].
  apply (serve_raise _ s AttributeError);
    [intros w; apply list_buses_raises|discriminate].
Qed.

(** C7: the report route is answered with status 500 and no line; it
    changes nothing. *)
Theorem C7_report_lines (s : server) :
  serve (generate_report lib) s = (mk_response 500 None, s).
Proof.
  apply (serve_raise _ s AttributeError);
    [intros w; apply generate_report_raises|discriminate].
Qed.


(** *** Registration *)

Lemma rsplit_dot_aux_exe (stem : string) :
  rsplit_dot_aux (stem ++ ".exe") = Some (stem, "exe").
Proof.
  induction stem as [|c stem IH].
  - reflexivity.
  - cbn [append rsplit_dot_aux]. rewrite IH. reflexivity.
Qed.

Lemma allowed_file_exe (stem : string) : allowed_file (stem ++ ".exe") = false.
Proof.
  unfold allowed_file, rsplit_dot. rewrite rsplit_dot_aux_exe.
  apply andb_false_r.
Qed.

Lemma allowed_file_nonempty (name : string) :
  allowed_file name = true -> nonempty name = true.
Proof. destruct name; [discriminate|reflexivity]. Qed.

(** C9: a registration whose fields are all present and whose file is named
    "<stem>.exe" is answered with status 400, "File type not allowed"; no
    authority is created and no file is stored. *)
Theorem C9_exe_upload_rejected (s : server) (utcnow : nat -> datetime)
    (form : list (string * string)) (uploaded : list (string * FileStorage))
    (u e d p stem : string) (f : FileStorage) :
  form_get form "username" = Some u -> nonempty u = true ->
  form_get form "email" = Some e -> nonempty e = true ->
  form_get form "department" = Some d -> nonempty d = true ->
  form_get form "password" = Some p -> nonempty p = true ->
  form_get uploaded "file" = Some f -> filename f = stem ++ ".exe" ->
  serve (register_authority lib UPLOAD_FOLDER utcnow form uploaded) s
  = (error_reply 400 "File type not allowed", s).
Proof.
  intros Hu Tu He Te Hd Td Hp Tp Hf Hname.
  assert (Tf : nonempty (filename f) = true)
    by (rewrite Hname; destruct stem; reflexivity).
  unfold serve, register_authority.
  rewrite Hu, He, Hd, Hp, Hf, Tu, Te, Td, Tp, Tf, Hname, allowed_file_exe.
  simpl. now rewrite server_eta.
Qed.

Lemma first_match_None (u e : string) (rows : list Authority.t) :
  first_match u e rows = None
  <-> forall a, In a rows ->
                Authority.username a <> u /\ Authority.email a <> e.
Proof.
  unfold first_match. split.
  - destruct (find _ rows) eqn:Hu; [discriminate|]. intros He a Hin. split.
    + apply String.eqb_neq. exact (find_none _ _ Hu a Hin).
    + apply String.eqb_neq. exact (find_none _ _ He a Hin).
  - intros Hall.
    assert (Hfind : forall f,
               (forall a, In a rows -> f a = false) -> find f rows = None).
    { intros f Hf. induction rows as [|x rows IH]; [reflexivity|]. simpl.
      rewrite (Hf x (or_introl eq_refl)). apply IH.
      - intros a Ha. apply Hall. now right.
      - intros a Ha. apply Hf. now right. }
    rewrite Hfind; [apply Hfind|].
    + intros a Ha. apply String.eqb_neq. now apply Hall.
    + intros a Ha. apply String.eqb_neq. now apply Hall.
Qed.

(** A registration whose fields are all present and whose file is allowed
    is refused when the table has a row with its username or its email. *)
Lemma register_conflict (s : server) (utcnow : nat -> datetime)
    (form : list (string * string)) (uploaded : list (string * FileStorage))
    (u e d p : string) (f : FileStorage) (a : Authority.t) :
  form_get form "username" = Some u -> nonempty u = true ->
  form_get form "email" = Some e -> nonempty e = true ->
  form_get form "department" = Some d -> nonempty d = true ->
  form_get form "password" = Some p -> nonempty p = true ->
  form_get uploaded "file" = Some f -> allowed_file (filename f) = true ->
  In a (authorities (db s)) ->
  Authority.username a = u \/ Authority.email a = e ->
  serve (register_authority lib UPLOAD_FOLDER utcnow form uploaded) s
  = (error_reply 400 "Username or email already registered", s).
Proof.
  intros Hu Tu He Te Hd Td Hp Tp Hf Ta Hin Hsame.
  pose proof (allowed_file_nonempty _ Ta) as Tf.
  unfold serve, register_authority.
  rewrite Hu, He, Hd, Hp, Hf, Tu, Te, Td, Tp, Tf, Ta.
  unfold mbind, Authority_query_first, ret.
  cbn [negb andb fst snd committed uploads session db files].
  destruct (first_match u e (authorities (db s))) as [a'|] eqn:Hfind.
  - cbn. now rewrite server_eta.
  - exfalso. destruct (proj1 (first_match_None _ _ _) Hfind a Hin).
    destruct Hsame; contradiction.
Qed.

(** A registration answered with status 201 leaves a row with its username
    and its email. *)
Lemma register_created (s s1 : server) (r1 : response)
    (utcnow : nat -> datetime)
    (form : list (string * string)) (uploaded : list (string * FileStorage)) :
  serve (register_authority lib UPLOAD_FOLDER utcnow form uploaded) s
  = (r1, s1) ->
  status_code r1 = 201 ->
  exists u e a,
    form_get form "username" = Some u /\ form_get form "email" = Some e
    /\ In a (authorities (db s1))
    /\ Authority.username a = u /\ Authority.email a = e.
Proof.
  unfold serve, register_authority.
  destruct (form_get form "username") as [u|];
    [|intros [= <- _]; discriminate].
  destruct (form_get form "email") as [e|];
    [|intros [= <- _]; discriminate].
  destruct (form_get form "password") as [p|];
    [|intros [= <- _]; discriminate].
  destruct (form_get form "department") as [d|];
    [|intros [= <- _]; discriminate].
  destruct (form_get uploaded "file") as [f|];
    [|intros [= <- _]; discriminate].
  destruct (negb _); [intros [= <- _]; discriminate|].
  destruct (negb _); [intros [= <- _]; discriminate|].
  unfold mbind, Authority_query_first, ret.
  cbn [fst snd committed uploads session db files].
  destruct (first_match _ _ _); [intros [= <- _]; discriminate|].
  cbn. intros [= <- <-] _. cbn.
  eexists u, e, _. repeat split.
  - apply in_or_app. right. left. reflexivity.
  - reflexivity.
  - reflexivity.
Qed.

(** C8: after a registration that succeeded, a second registration with
    all fields present and an allowed file that reuses the username or the
    email of the first is answered with status 400, "Username or email
    already registered", and creates no authority. *)
Theorem C8_duplicate_registration (s s1 : server) (r1 : response)
    (utcnow1 utcnow2 : nat -> datetime)
    (form1 form2 : list (string * string))
    (uploaded1 uploaded2 : list (string * FileStorage))
    (u e d p : string) (f : FileStorage) :
  serve (register_authority lib UPLOAD_FOLDER utcnow1 form1 uploaded1) s
  = (r1, s1) ->
  status_code r1 = 201 ->
  form_get form2 "username" = Some u -> nonempty u = true ->
  form_get form2 "email" = Some e -> nonempty e = true ->
  form_get form2 "department" = Some d -> nonempty d = true ->
  form_get form2 "password" = Some p -> nonempty p = true ->
  form_get uploaded2 "file" = Some f -> allowed_file (filename f) = true ->
  form_get form1 "username" = Some u \/ form_get form1 "email" = Some e ->
  serve (register_authority lib UPLOAD_FOLDER utcnow2 form2 uploaded2) s1
  = (error_reply 400 "Username or email already registered", s1).
Proof.
  intros Hfirst Hok Hu Tu He Te Hd Td Hp Tp Hf Ta Hreuse.
  destruct (register_created _ _ _ _ _ _ Hfirst Hok)
    as (u1 & e1 & a & Hu1 & He1 & Hin & Hau & Hae).
  apply (register_conflict s1 utcnow2 form2 uploaded2 u e d p f a);
    try assumption.
  destruct Hreuse as [H|H]; [left|right]; congruence.
Qed.

End Properties.

(** ** The properties on the sample data *)

Lemma C5_create_defaults_witness :
  serve (add_bus sample_library (fun _ => t_request)
           (Some (VDict [("name", VStr "X1"); ("route", VStr "R1")])))
        empty_server
  = (mk_response 500 None, empty_server)
  /\ serve (add_bus sample_library (fun _ => t_request)
              (Some (VDict [("name", VStr "X1")]))) empty_server
     = (error_reply 400 "Name and route are required", empty_server).
Proof.
  split.
  - apply (proj1 (C5_create_defaults sample_library empty_server
                    (fun _ => t_request)
                    [("name", VStr "X1"); ("route", VStr "R1")])
                 (VStr "X1") (VStr "R1")); reflexivity.
  - apply (proj2 (C5_create_defaults sample_library empty_server
                    (fun _ => t_request) [("name", VStr "X1")])).
    right. reflexivity.
Defined.

Lemma C8_duplicate_registration_witness :
  serve (register_authority sample_library "/srv/uploads"
           (fun _ => t_request)
           (("email", "other@navi.example") :: sample_form)
           [("file", mk_file "permit.png" "PNG")])
        (snd (serve (register_authority sample_library "/srv/uploads"
                       (fun _ => t_created) sample_form
                       [("file", mk_file "licence.pdf" "PDF")])
                    empty_server))
  = (error_reply 400 "Username or email already registered",
     snd (serve (register_authority sample_library "/srv/uploads"
                   (fun _ => t_created) sample_form
                   [("file", mk_file "licence.pdf" "PDF")])
                empty_server)).
Proof.
  apply (C8_duplicate_registration sample_library "/srv/uploads"
           empty_server _
           (fst (serve (register_authority sample_library "/srv/uploads"
                          (fun _ => t_created) sample_form
                          [("file", mk_file "licence.pdf" "PDF")])
                       empty_server))
           (fun _ => t_created) (fun _ => t_request)
           sample_form (("email", "other@navi.example") :: sample_form)
           [("file", mk_file "licence.pdf" "PDF")]
           [("file", mk_file "permit.png" "PNG")]
           "asha" "other@navi.example" "Transport" "s3cret"
           (mk_file "permit.png" "PNG"));
    try reflexivity.
  left. reflexivity.
Defined.

Lemma C9_exe_upload_rejected_witness :
  serve (register_authority sample_library "/srv/uploads"
           (fun _ => t_request) sample_form
           [("file", mk_file "setup.exe" "MZ")]) empty_server
  = (error_reply 400 "File type not allowed", empty_server).
Proof.
  apply (C9_exe_upload_rejected sample_library "/srv/uploads" empty_server
           (fun _ => t_request) sample_form
           [("file", mk_file "setup.exe" "MZ")]
           "asha" "asha@navi.example" "Transport" "s3cret" "setup"
           (mk_file "setup.exe" "MZ")); reflexivity.
Defined.

(** ** Further properties of the routes *)

Section Registration.

Variable lib : library.
Variable UPLOAD_FOLDER : string.

(** *** Allowed files *)

Lemma str_contains_dot_cons (c : ascii) (s : string) :
  str_contains "." (String c s)
  = (Ascii.eqb c "."%char || str_contains "." s)%bool.
Proof.
  cbn [str_contains String.prefix].
  destruct (ascii_dec "."%char c) as [<-|Hne].
  - destruct s; reflexivity.
  - destruct (Ascii.eqb_spec c "."%char) as [->|_]; [contradiction|].
    reflexivity.
Qed.

Lemma rsplit_dot_aux_None (s : string) :
  rsplit_dot_aux s = None <-> str_contains "." s = false.
Proof.
  induction s as [|c s IH].
  - split; reflexivity.
  - rewrite str_contains_dot_cons. cbn [rsplit_dot_aux].
    destruct (rsplit_dot_aux s) as [[a b]|].
    + split; [discriminate|]. intros H. apply orb_false_elim in H.
      destruct H as [_ H]. apply IH in H. discriminate H.
    + destruct (Ascii.eqb c "."%char); [split; discriminate|].
      split; [intros _; now apply IH|reflexivity].
Qed.

Lemma rsplit_dot_aux_Some (s a b : string) :
  rsplit_dot_aux s = Some (a, b)
  <-> s = a ++ "." ++ b /\ str_contains "." b = false.
Proof.
  revert a. induction s as [|c s IH]; intros a.
  - split; [discriminate|]. intros [H _]. destruct a; discriminate H.
  - cbn [rsplit_dot_aux].
    destruct (rsplit_dot_aux s) as [[a' b']|] eqn:Hs.
    + split.
      * intros [= <- <-]. destruct (proj1 (IH a') eq_refl) as [-> Hb].
        split; [reflexivity|exact Hb].
      * intros [Heq Hb]. destruct a as [|c' a].
        -- cbn in Heq. injection Heq as -> ->.
           apply rsplit_dot_aux_None in Hb. congruence.
        -- cbn in Heq. injection Heq as -> Heq.
           assert (H : Some (a', b') = Some (a, b))
             by (apply IH; split; [exact Heq|exact Hb]).
           now injection H as -> ->.
    + pose proof (proj1 (rsplit_dot_aux_None s) Hs) as Hnone.
      destruct (Ascii.eqb_spec c "."%char) as [->|Hne].
      * split.
        -- intros [= <- <-]. split; [reflexivity|exact Hnone].
        -- intros [Heq Hb]. destruct a as [|c' a].
           ++ cbn in Heq. now injection Heq as ->.
           ++ cbn in Heq. injection Heq as _ Heq. exfalso.
              assert (H : None = Some (a, b))
                by (apply IH; split; [exact Heq|exact Hb]).
              discriminate H.
      * split; [discriminate|]. intros [Heq Hb]. destruct a as [|c' a].
        -- cbn in Heq. injection Heq as -> _. contradiction.
        -- cbn in Heq. injection Heq as _ Heq. exfalso.
           assert (H : None = Some (a, b))
             by (apply IH; split; [exact Heq|exact Hb]).
           discriminate H.
Qed.

(** X1: a file name is allowed exactly when the text after its last dot,
    in lower case, is one of pdf, png, jpg, jpeg; a name without a dot is
    never allowed. *)
Theorem allowed_file_iff (name : string) :
  allowed_file name = true
  <-> exists stem ext,
      name = stem ++ "." ++ ext
      /\ str_contains "." ext = false
      /\ In (lower ext) ALLOWED_EXTENSIONS.
Proof.
  unfold allowed_file, rsplit_dot.
  destruct (rsplit_dot_aux name) as [[a b]|] eqn:Hsplit.
  - apply rsplit_dot_aux_Some in Hsplit. destruct Hsplit as [-> Hb].
    cbn [nth_error]. split.
    + intros H. apply andb_prop in H. destruct H as [_ H].
      apply existsb_exists in H. destruct H as [x [Hin Hx]].
      apply String.eqb_eq in Hx. subst x. now exists a, b.
    + intros (stem & ext & Heq & Hext & Hin).
      assert (H : Some (a, b) = Some (stem, ext)).
      { transitivity (rsplit_dot_aux (stem ++ "." ++ ext)).
        - symmetry. rewrite <- Heq. now apply rsplit_dot_aux_Some.
        - now apply rsplit_dot_aux_Some. }
      injection H as -> ->. apply andb_true_intro. split.
      * destruct (str_contains "." (stem ++ "." ++ ext)) eqn:Hc;
          [reflexivity|].
        apply rsplit_dot_aux_None in Hc.
        assert (H : rsplit_dot_aux (stem ++ "." ++ ext) = Some (stem, ext))
          by now apply rsplit_dot_aux_Some.
        congruence.
      * apply existsb_exists. exists (lower ext).
        split; [exact Hin|apply String.eqb_refl].
  - apply rsplit_dot_aux_None in Hsplit. rewrite Hsplit. split;
      [discriminate|].
    intros (stem & ext & Heq & Hext & _). exfalso.
    assert (H : rsplit_dot_aux name = Some (stem, ext))
      by now apply rsplit_dot_aux_Some.
    apply rsplit_dot_aux_None in Hsplit. congruence.
Qed.

(** *** Registration *)

(** X2: a registration in which username, email, department or password
    is absent or empty, or the upload is absent or has no name, is answered
    with status 400, "Missing required fields", whatever the other fields
    are; nothing is stored. *)
Theorem register_missing_field (s : server) (utcnow : nat -> datetime)
    (form : list (string * string)) (uploaded : list (string * FileStorage)) :
  blank (form_get form "username") \/ blank (form_get form "email")
  \/ blank (form_get form "department") \/ blank (form_get form "password")
  \/ blank_file (form_get uploaded "file") ->
  serve (register_authority lib UPLOAD_FOLDER utcnow form uploaded) s
  = (error_reply 400 "Missing required fields", s).
Proof.
  intros H. unfold serve, register_authority.
  destruct (form_get form "username") as [u|];
    [|simpl; now rewrite server_eta].
  destruct (form_get form "email") as [e|];
    [|simpl; now rewrite server_eta].
  destruct (form_get form "password") as [p|];
    [|simpl; now rewrite server_eta].
  destruct (form_get form "department") as [d|];
    [|simpl; now rewrite server_eta].
  destruct (form_get uploaded "file") as [f|];
    [|simpl; now rewrite server_eta].
  assert (Hblank : nonempty u && nonempty e && nonempty p && nonempty d
                   && nonempty (filename f) = false).
  { unfold blank, blank_file in H.
    destruct H as [[H|H]|[[H|H]|[[H|H]|[[H|H]|[H|(f' & H & Hname)]]]]];
      try discriminate H.
    - injection H as ->. reflexivity.
    - injection H as ->. now rewrite andb_false_r.
    - injection H as ->. now rewrite andb_false_r.
    - injection H as ->. now rewrite !andb_false_r.
    - injection H as <-. rewrite Hname. now rewrite andb_false_r. }
  rewrite Hblank. simpl. now rewrite server_eta.
Qed.

(** X3: a registration with all fields present, an allowed file and a
    username and an email that no account has is answered with status 201;
    it appends one account with a fresh key, the hash of the password (not
    the password), verified set, and the name of the stored document, and
    it stores the document under that name in the upload folder. *)
Theorem register_success (s : server) (utcnow : nat -> datetime)
    (form : list (string * string)) (uploaded : list (string * FileStorage))
    (u e d p : string) (f : FileStorage) :
  form_get form "username" = Some u -> nonempty u = true ->
  form_get form "email" = Some e -> nonempty e = true ->
  form_get form "department" = Some d -> nonempty d = true ->
  form_get form "password" = Some p -> nonempty p = true ->
  form_get uploaded "file" = Some f -> allowed_file (filename f) = true ->
  (forall a, In a (authorities (db s)) ->
             Authority.username a <> u /\ Authority.email a <> e) ->
  serve (register_authority lib UPLOAD_FOLDER utcnow form uploaded) s
  = (register_reply (new_authority lib utcnow s u e d p f),
     after_register lib UPLOAD_FOLDER utcnow s u e d p f).
Proof.
  intros Hu Tu He Te Hd Td Hp Tp Hf Ta Hfree.
  pose proof (allowed_file_nonempty _ Ta) as Tf.
  unfold serve, register_authority.
  rewrite Hu, He, Hd, Hp, Hf, Tu, Te, Td, Tp, Tf, Ta.
  unfold mbind, Authority_query_first, ret.
  cbn [negb andb fst snd committed uploads session db files].
  rewrite (proj2 (first_match_None u e (authorities (db s))) Hfree).
  reflexivity.
Qed.

(** Every registration either is refused and changes nothing, or is the
    registration of [register_success]. *)
Lemma register_outcome (s : server) (utcnow : nat -> datetime)
    (form : list (string * string)) (uploaded : list (string * FileStorage)) :
  (status_code
     (fst (serve (register_authority lib UPLOAD_FOLDER utcnow form uploaded)
                 s)) = 400
   /\ snd (serve (register_authority lib UPLOAD_FOLDER utcnow form uploaded)
                 s) = s)
  \/ exists u e d p f,
      form_get form "username" = Some u /\ form_get form "email" = Some e
      /\ form_get form "password" = Some p
      /\ nonempty u = true /\ nonempty e = true /\ nonempty p = true
      /\ (forall a, In a (authorities (db s)) ->
                    Authority.username a <> u /\ Authority.email a <> e)
      /\ serve (register_authority lib UPLOAD_FOLDER utcnow form uploaded) s
         = (register_reply (new_authority lib utcnow s u e d p f),
            after_register lib UPLOAD_FOLDER utcnow s u e d p f).
Proof.
  unfold serve, register_authority.
  destruct (form_get form "username") as [u|];
    [|left; simpl; now rewrite server_eta].
  destruct (form_get form "email") as [e|];
    [|left; simpl; now rewrite server_eta].
  destruct (form_get form "password") as [p|];
    [|left; simpl; now rewrite server_eta].
  destruct (form_get form "department") as [d|];
    [|left; simpl; now rewrite server_eta].
  destruct (form_get uploaded "file") as [f|];
    [|left; simpl; now rewrite server_eta].
  destruct (nonempty u && nonempty e && nonempty p && nonempty d
            && nonempty (filename f)) eqn:Hfields;
    [|left; simpl; now rewrite server_eta].
  destruct (allowed_file (filename f));
    [|left; simpl; now rewrite server_eta].
  unfold mbind, Authority_query_first, ret.
  cbn [fst snd committed uploads session db files negb].
  destruct (first_match u e (authorities (db s))) eqn:Hfind;
    [left; simpl; now rewrite server_eta|].
  right. exists u, e, d, p, f.
  apply andb_prop in Hfields. destruct Hfields as [Hfields _].
  apply andb_prop in Hfields. destruct Hfields as [Hfields _].
  apply andb_prop in Hfields. destruct Hfields as [Hfields Tp].
  apply andb_prop in Hfields. destruct Hfields as [Tu Te].
  repeat split; try reflexivity; try assumption.
  - now destruct (proj1 (first_match_None _ _ _) Hfind a H).
  - now destruct (proj1 (first_match_None _ _ _) Hfind a H).
Qed.

(** X4: a registration that is not answered with status 201 leaves no
    account and no file; one that is adds exactly one account at the end of
    the table; no registration touches the bus table. *)
Theorem register_effect (s : server) (utcnow : nat -> datetime)
    (form : list (string * string)) (uploaded : list (string * FileStorage)) :
  let out :=
    serve (register_authority lib UPLOAD_FOLDER utcnow form uploaded) s in
  buses (db (snd out)) = buses (db s)
  /\ (status_code (fst out) <> 201 -> snd out = s)
  /\ (status_code (fst out) = 201 ->
      exists a, authorities (db (snd out)) = (authorities (db s) ++ [a])%list).
Proof.
  intros out. subst out.
  destruct (register_outcome s utcnow form uploaded)
    as [[Hst Hs]|(u & e & d & p & f & _ & _ & _ & _ & _ & _ & _ & ->)].
  - rewrite Hs, Hst. split; [reflexivity|]. split; [reflexivity|].
    discriminate.
  - cbn. split; [reflexivity|]. split; [intros H; now contradiction H|].
    intros _. now eexists.
Qed.

Lemma next_key_above (keys : list Z) (k : Z) : In k keys -> k < next_key keys.
Proof.
  unfold next_key. induction keys as [|k' keys IH]; cbn [fold_right In];
    [tauto|].
  intros [->|Hin]; [lia|]. specialize (IH Hin). lia.
Qed.

Lemma next_key_fresh (keys : list Z) : ~ In (next_key keys) keys.
Proof. intros Hin. apply next_key_above in Hin. lia. Qed.

Lemma NoDup_snoc {A} (l : list A) (x : A) :
  NoDup l -> ~ In x l -> NoDup (l ++ [x]).
Proof.
  intros Hl Hx. apply NoDup_app; [exact Hl| |].
  - constructor; [simpl; tauto|constructor].
  - intros y Hy [<-|[]]. contradiction.
Qed.

(** X5: usernames, emails and primary keys of the accounts stay distinct
    under every registration request. *)
Theorem register_keeps_unique (s : server) (utcnow : nat -> datetime)
    (form : list (string * string)) (uploaded : list (string * FileStorage)) :
  unique_accounts s ->
  unique_accounts
    (snd (serve (register_authority lib UPLOAD_FOLDER utcnow form uploaded)
                s)).
Proof.
  intros (Hu & He & Hk).
  destruct (register_outcome s utcnow form uploaded)
    as [[_ ->]|(u & e & d & p & f & _ & _ & _ & _ & _ & _ & Hfree & ->)];
    [now repeat split|].
  unfold unique_accounts, after_register. cbn [snd db authorities].
  rewrite !map_app. cbn [map new_authority Authority.username
                           Authority.email Authority.id].
  repeat split; apply NoDup_snoc; try assumption.
  - intros Hin. apply in_map_iff in Hin. destruct Hin as [a [Ha Hin]].
    now destruct (Hfree a Hin).
  - intros Hin. apply in_map_iff in Hin. destruct Hin as [a [Ha Hin]].
    now destruct (Hfree a Hin).
  - apply next_key_fresh.
Qed.

End Registration.

Section Login.

Variable lib : library.
Variable UPLOAD_FOLDER : string.
Variable rt : runtime.

(** X6: login reads and never writes: whatever the body, the accounts, the
    buses and the files after the request are those before it. *)
Theorem login_read_only (s : server) (body : option pyval) :
  snd (serve (login rt body) s) = s.
Proof.
  unfold serve, login, mbind, get_json, ret, lift, raise,
    Authority_query_identifier, Authority_query_first,
    Authority_check_password.
  destruct body as [data|]; [|cbn; apply server_eta].
  destruct data; cbn; try apply server_eta.
  destruct (negb _ || negb _); cbn; [apply server_eta|].
  destruct (bound_text rt _); cbn; [|apply server_eta].
  destruct (first_match _ _ _); cbn; [|apply server_eta].
  destruct (check_password_hash rt _ _) as [[|]|]; cbn; apply server_eta.
Qed.

(** X7: a login whose identifier or password is absent, null, empty or
    otherwise false is answered with status 400, "Missing credentials",
    before any account is looked up. *)
Theorem login_missing_credentials (s : server) (d : list (string * pyval)) :
  truthy (field d "identifier") = false
  \/ truthy (field d "password") = false ->
  serve (login rt (Some (VDict d))) s
  = (error_reply 400 "Missing credentials", s).
Proof.
  intros H.
  unfold serve, login, mbind, get_json, ret, lift, get.
  fold (field d "identifier"). fold (field d "password").
  assert (Hneg : negb (truthy (field d "identifier"))
                 || negb (truthy (field d "password")) = true).
  { destruct H as [-> | ->]; [reflexivity|apply orb_true_r]. }
  rewrite Hneg. cbn. now rewrite server_eta.
Qed.

(** X8: a login with a string identifier for which the query finds no
    account and a login whose password check fails for the account that
    the query finds (the account with that username, else the account with
    that email) get the same answer: status 401, "Bad username/email or
    password"; neither changes anything. *)
Theorem login_rejects_alike (s : server) (d : list (string * pyval))
    (i : string) :
  field d "identifier" = VStr i -> nonempty i = true ->
  truthy (field d "password") = true ->
  account_for i s = None
  \/ (exists a, account_for i s = Some a
                /\ check_password_hash rt (Authority.password_hash a)
                                       (field d "password") = Ok false) ->
  serve (login rt (Some (VDict d))) s
  = (error_reply 401 "Bad username/email or password", s).
Proof.
  intros Hi Ti Tp Hcase.
  unfold serve, login, mbind, get_json, ret, lift, get,
    Authority_query_identifier, Authority_query_first,
    Authority_check_password.
  fold (field d "identifier"). fold (field d "password").
  rewrite Hi, Tp. cbn [truthy bound_text negb orb fst snd session db].
  fold (nonempty i). rewrite Ti. cbn [negb orb].
  unfold mbind, lift. cbn [fst snd session db].
  unfold account_for in Hcase.
  destruct Hcase as [->|(a & -> & Hcheck)]; [|rewrite Hcheck];
    cbn; now rewrite server_eta.
Qed.

Lemma find_app_None {A} (f : A -> bool) (l l' : list A) :
  find f l = None -> find f (l ++ l') = find f l'.
Proof.
  induction l as [|y l IH]; simpl; intros Hl; [reflexivity|].
  destruct (f y); [discriminate|]. now apply IH.
Qed.

(** With no older row that has [i] as username or email, the query finds
    the row appended last when that row has [i] as username or email. *)
Lemma first_match_snoc (i : string) (rows : list Authority.t)
    (a : Authority.t) :
  (forall a0, In a0 rows ->
              Authority.username a0 <> i /\ Authority.email a0 <> i) ->
  Authority.username a = i \/ Authority.email a = i ->
  first_match i i (rows ++ [a]) = Some a.
Proof.
  intros Hfree Ha.
  pose proof (proj2 (first_match_None i i rows) Hfree) as Hnone.
  unfold first_match in *.
  destruct (find (fun a0 => String.eqb (Authority.username a0) i) rows)
    eqn:Hu; [discriminate|].
  rewrite (find_app_None _ rows [a] Hu), (find_app_None _ rows [a] Hnone).
  cbn [find].
  destruct (String.eqb_spec (Authority.username a) i) as [_|Hne];
    [reflexivity|].
  destruct Ha as [Ha|Ha]; [contradiction|].
  now rewrite Ha, String.eqb_refl.
Qed.

(** X9: after a registration that succeeded, a login with the registered
    username or the registered email and the registered password is
    answered with status 200, the account, and a token of 8 hours for the
    username, provided the password check accepts the hash that was stored
    and no older account has the identifier as its username or email. *)
Theorem login_after_register (s s1 : server) (r1 : response)
    (utcnow : nat -> datetime)
    (form : list (string * string)) (uploaded : list (string * FileStorage))
    (u e p i : string) :
  serve (register_authority lib UPLOAD_FOLDER utcnow form uploaded) s
  = (r1, s1) ->
  status_code r1 = 201 ->
  form_get form "username" = Some u -> form_get form "email" = Some e ->
  form_get form "password" = Some p ->
  i = u \/ i = e ->
  unused i s ->
  check_password_hash rt (generate_password_hash lib p) (VStr p) = Ok true ->
  exists a,
    authorities (db s1) = (authorities (db s) ++ [a])%list
    /\ Authority.username a = u /\ Authority.email a = e
    /\ serve (login rt (Some (VDict [("identifier", VStr i);
                                     ("password", VStr p)]))) s1
       = (login_reply rt a, s1).
Proof.
  intros Hreg Hok Hu He Hp Hi Hfree Hcheck.
  destruct (register_outcome lib UPLOAD_FOLDER s utcnow form uploaded)
    as [[Hst _]|(u' & e' & d & p' & f & Hu' & He' & Hp' & Tu & Te & Tp & _
                 & Hout)].
  { rewrite Hreg in Hst. cbn in Hst. congruence. }
  assert (u' = u) by congruence. assert (e' = e) by congruence.
  assert (p' = p) by congruence. subst u' e' p'.
  rewrite Hreg in Hout. injection Hout as -> ->.
  exists (new_authority lib utcnow s u e d p f).
  split; [reflexivity|]. split; [reflexivity|]. split; [reflexivity|].
  assert (Ti : nonempty i = true) by (destruct Hi; now subst).
  unfold serve, login, mbind, get_json, ret, lift, get,
    Authority_query_identifier, Authority_query_first,
    Authority_check_password.
  cbn [dict_get String.eqb Ascii.eqb Bool.eqb truthy bound_text fst snd
       session db after_register authorities].
  fold (nonempty i). fold (nonempty p). rewrite Ti, Tp. cbn [negb orb].
  unfold mbind, lift.
  cbn [fst snd session db after_register authorities].
  rewrite first_match_snoc.
  - cbn [new_authority Authority.password_hash]. rewrite Hcheck.
    cbn. reflexivity.
  - exact Hfree.
  - cbn [new_authority Authority.username Authority.email].
    destruct Hi as [->| ->]; [now left|now right].
Qed.

End Login.

Section BusRoutes.

Variable lib : library.

(** *** Creation *)

(** X11: a create request whose name or route is absent, null, empty or
    otherwise false is answered with status 400 and adds nothing. *)
Theorem add_bus_rejected (s : server) (utcnow : nat -> datetime)
    (d : list (string * pyval)) :
  truthy (field d "name") = false \/ truthy (field d "route") = false ->
  serve (add_bus lib utcnow (Some (VDict d))) s
  = (error_reply 400 "Name and route are required", s).
Proof.
  intros H.
  unfold serve, add_bus, mbind, get_json, ret, lift, get.
  fold (field d "name"). fold (field d "route").
  assert (Hneg : negb (truthy (field d "name"))
                 || negb (truthy (field d "route")) = true).
  { destruct H as [-> | ->]; [reflexivity|apply orb_true_r]. }
  rewrite Hneg. cbn. now rewrite server_eta.
Qed.

(** X12: no create request is answered with status 201 and none stores
    anything: a body that is not JSON is answered with 400, a JSON body
    that is not an object with 500 (AttributeError), and an object with a
    name and a route that are true with 500 as well, because the session
    refuses the bus (UnmappedInstanceError). *)
Theorem add_bus_refused (s : server) (utcnow : nat -> datetime)
    (body : option pyval) :
  snd (serve (add_bus lib utcnow body) s) = s
  /\ status_code (fst (serve (add_bus lib utcnow body) s)) <> 201
  /\ (body = None ->
      serve (add_bus lib utcnow body) s = (mk_response 400 None, s))
  /\ (forall data, body = Some data -> (forall d, data <> VDict d) ->
      serve (add_bus lib utcnow body) s = (mk_response 500 None, s))
  /\ (forall d, body = Some (VDict d) ->
      truthy (field d "name") = true -> truthy (field d "route") = true ->
      serve (add_bus lib utcnow body) s = (mk_response 500 None, s)).
Proof.
  assert (Hout : (snd (serve (add_bus lib utcnow body) s) = s
                  /\ status_code (fst (serve (add_bus lib utcnow body) s))
                     <> 201)).
  { unfold serve, add_bus, mbind, get_json, ret, lift, raise, get,
      db_session_add_bus.
    destruct body as [data|];
      [|cbn; split; [apply server_eta|discriminate]].
    destruct data; cbn; try (split; [apply server_eta|discriminate]).
    destruct (negb _ || negb _); cbn;
      split; try apply server_eta; discriminate. }
  destruct Hout as [Hs Hst]. split; [exact Hs|]. split; [exact Hst|].
  split; [|split].
  - intros ->. cbn. now rewrite server_eta.
  - intros data -> Hnot.
    destruct data; cbn; try now rewrite server_eta.
    now contradiction (Hnot d).
  - intros d -> Tn Tr.
    apply (serve_raise _ s UnmappedInstanceError); [|discriminate].
    intros w. now apply add_bus_raises.
Qed.

End BusRoutes.

Section Seed.

Variable rt : runtime.

(** *** The seed command *)

(** X24: the seed command, on whatever server and at whatever time, ends
    at [Bus.query.count()] with AttributeError: it prints neither "Seeded
    buses" nor "Buses already present" and stores nothing. *)
Theorem seed_fails (s : server) (utcnow : nat -> datetime) :
  run_command (seed_data rt utcnow) s = (Raise AttributeError, s).
Proof.
  unfold run_command, seed_data, mbind, Bus_query_count, Bus_query, raise.
  cbn [committed uploads]. now rewrite server_eta.
Qed.

End Seed.

(** ** The further properties on the sample data *)

Lemma unique_accounts_empty : unique_accounts empty_server.
Proof. repeat split; constructor. Qed.

Lemma register_missing_field_witness :
  serve (register_authority sample_library "/srv/uploads" sample_clock
           [("username", "asha"); ("email", ""); ("password", "s3cret")]
           [("file", mk_file "setup.exe" "MZ")]) empty_server
  = (error_reply 400 "Missing required fields", empty_server).
Proof.
  apply (register_missing_field sample_library "/srv/uploads" empty_server).
  right. left. right. reflexivity.
Defined.

Lemma register_success_witness :
  serve (register_authority sample_library "/srv/uploads" sample_clock
           sample_form sample_upload) empty_server
  = (register_reply
       (new_authority sample_library sample_clock empty_server "asha"
          "asha@navi.example" "Transport" "s3cret"
          (mk_file "licence.pdf" "PDF")),
     after_register sample_library "/srv/uploads" sample_clock empty_server
       "asha" "asha@navi.example" "Transport" "s3cret"
       (mk_file "licence.pdf" "PDF")).
Proof.
  apply (register_success sample_library "/srv/uploads" empty_server
           sample_clock sample_form sample_upload); try reflexivity.
  intros a [].
Defined.

Lemma register_keeps_unique_witness :
  unique_accounts
    (snd (serve (register_authority sample_library "/srv/uploads"
                   sample_clock sample_form sample_upload) empty_server)).
Proof.
  apply (register_keeps_unique sample_library "/srv/uploads" empty_server
           sample_clock sample_form sample_upload unique_accounts_empty).
Defined.

Lemma login_missing_credentials_witness :
  serve (login sample_runtime (Some (VDict [("identifier", VStr "asha");
                                            ("password", VStr "")])))
        registered_server
  = (error_reply 400 "Missing credentials", registered_server).
Proof.
  apply (login_missing_credentials sample_runtime registered_server).
  right. reflexivity.
Defined.

Lemma login_rejects_alike_witness :
  serve (login sample_runtime (Some (VDict [("identifier", VStr "nobody");
                                            ("password", VStr "s3cret")])))
        registered_server
  = (error_reply 401 "Bad username/email or password", registered_server).
Proof.
  apply (login_rejects_alike sample_runtime registered_server _ "nobody");
    try reflexivity.
  left. reflexivity.
Defined.

Lemma login_after_register_witness :
  exists a,
    authorities (db registered_server)
    = (authorities (db empty_server) ++ [a])%list
    /\ Authority.username a = "asha"
    /\ Authority.email a = "asha@navi.example"
    /\ serve (login sample_runtime (Some (VDict sample_login)))
             registered_server
       = (login_reply sample_runtime a, registered_server).
Proof.
  apply (login_after_register sample_library "/srv/uploads" sample_runtime
           empty_server registered_server
           (fst (serve (register_authority sample_library "/srv/uploads"
                          sample_clock sample_form sample_upload)
                       empty_server))
           sample_clock sample_form sample_upload
           "asha" "asha@navi.example" "s3cret" "asha"); try reflexivity.
  - left. reflexivity.
  - intros a [].
Defined.

Lemma add_bus_rejected_witness :
  serve (add_bus sample_library sample_clock
           (Some (VDict [("name", VStr ""); ("route", VStr "R1")])))
        empty_server
  = (error_reply 400 "Name and route are required", empty_server).
Proof.
  apply (add_bus_rejected sample_library empty_server sample_clock).
  left. reflexivity.
Defined.
